(** * sgpt/app.py: the command-line entry point of shell-gpt

    A shallow embedding of [main] (src/sgpt/app.py, lines 25-144).

    [main] is a straight-line Python function that talks to the outside world
    through a handful of collaborators: standard input, the editor, the
    configuration, the completion client, the three output handlers, the
    confirmation prompt and the shell.  None of them lives in app.py, so each
    call is recorded as an [Event] of a trace and its answer is read from a
    [World].  The network, the disk cache and the conversation store are only
    reachable through the client and the handlers: a trace without
    [EClient] and without [EHandle] is a run that touched none of them. *)

From Stdlib Require Import Bool List String ZArith.
From Stdlib Require Import Floats.SpecFloat.
Import ListNotations.
Open Scope string_scope.
Open Scope list_scope.

(** ** Data *)

(** Python [float]: an IEEE 754 binary64 value. *)
Definition float := spec_float.

(** The literals of the signature: [0.1] and [1.0] as binary64. *)
Definition float_0_1 : float := S754_finite false 7205759403792794 (-56).
Definition float_1_0 : float := S754_finite false 4503599627370496 (-52).

(** The parameters of [main], as typer hands them over.  [prompt], [chat],
    [repl] and [show_chat] default to [None]; [model] stands for
    [model.value], the only way the body uses it. *)
Record Invocation := {
  prompt : option string;
  model : string;
  temperature : float;
  top_probability : float;
  shell : bool;
  code : bool;
  editor : bool;
  cache : bool;
  chat : option string;
  repl : option string;
  show_chat : option string;
  list_chat : bool
}.

(** click's two exceptions raised by [main]. *)
Inductive ClickException :=
| MissingParameter (param_hint param_type : string)
| BadArgumentUsage (message : string).

(** [OpenAIClient(api_host, api_key)]. *)
Record OpenAIClient := { api_host : string; api_key : string }.

(** The three handler classes with their constructor arguments.  [main]
    passes [repl] and [chat] as they are, hence [option string]. *)
Inductive Handler :=
| ReplHandler (client : OpenAIClient) (chat_id : option string)
    (shell code : bool)
| ChatHandler (client : OpenAIClient) (chat_id : option string)
    (shell code : bool)
| DefaultHandler (client : OpenAIClient) (shell code : bool).

(** The arguments of [handle]; [ha_chat_id] is [None] where the call site
    passes no [chat_id]. *)
Record HandleArgs := {
  ha_prompt : option string;
  ha_model : string;
  ha_temperature : float;
  ha_top_probability : float;
  ha_chat_id : option string;
  ha_caching : bool
}.

(** What a run does to the outside world, in order. *)
Inductive Event :=
| EStdinRead
| EEditor
| ECfgGet (key : string)
| EClient (c : OpenAIClient)
| EHandle (h : Handler) (a : HandleArgs)
| EConfirm (text : string) (answer : bool)
| ERunCommand (command : string).

(** The answers of the collaborators.  [handler h a] is [Some text] when
    [h.handle(a)] returns [text] and [None] when it does not return (it
    raises, or the process exits inside it).  The configuration, the editor
    and the confirmation prompt are followed on the runs where they answer:
    a lookup that raises for a missing key, an edit that is refused and a
    prompt left without an answer end the run at that call and are not
    part of the model. *)
Record World := {
  stdin_isatty : bool;
  stdin_text : string;
  edited_prompt : string;
  cfg : string -> string;
  handler : Handler -> HandleArgs -> option string;
  confirm_answer : bool
}.

(** ** The effect monad: a trace and a result or an exception *)

Inductive Exn :=
| Click (e : ClickException)
| HandlerExit (h : Handler).

Inductive Result (A : Type) :=
| Ok (a : A)
| Raise (e : Exn).
Arguments Ok {A} a.
Arguments Raise {A} e.

Definition M (A : Type) : Type := (list Event * Result A)%type.

Definition ret {A} (a : A) : M A := ([], Ok a).

Definition bind {A B} (m : M A) (f : A -> M B) : M B :=
  match m with
  | (t, Ok a) => let (t', r) := f a in (t ++ t', r)
  | (t, Raise e) => (t, Raise e)
  end.

Definition raise {A} (e : ClickException) : M A := ([], Raise (Click e)).

Definition emit (ev : Event) : M unit := ([ev], Ok tt).

Declare Scope py_scope.
Delimit Scope py_scope with py.
Notation "x <- m ;; k" := (bind m (fun x => k))
  (at level 100, m at next level, right associativity) : py_scope.
Notation "m ;; k" := (bind m (fun _ => k))
  (at level 100, right associativity) : py_scope.
Open Scope py_scope.

(** [if c: body] *)
Definition when (c : bool) (body : M unit) : M unit :=
  if c then body else ret tt.

Definition trace {A} (m : M A) : list Event := fst m.
Definition result {A} (m : M A) : Result A := snd m.

(** ** Python values *)

(** Truth value of an [Optional[str]]: [None] and [""] are false. *)
Definition truthy (s : option string) : bool :=
  match s with
  | None => false
  | Some EmptyString => false
  | Some (String _ _) => true
  end.

(** [s or ""] *)
Definition or_empty (s : option string) : string :=
  match s with
  | None => ""
  | Some s => s
  end.

(** ** Collaborators *)

Section Collaborators.
Variable w : World.

Definition stdin_read : M string :=
  emit EStdinRead ;; ret (stdin_text w).

Definition get_edited_prompt : M string :=
  emit EEditor ;; ret (edited_prompt w).

Definition cfg_get (key : string) : M string :=
  emit (ECfgGet key) ;; ret (cfg w key).

Definition new_client (host key : string) : M OpenAIClient :=
  let c := {| api_host := host; api_key := key |} in
  emit (EClient c) ;; ret c.

Definition handle (h : Handler) (a : HandleArgs) : M string :=
  emit (EHandle h a) ;;
  match handler w h a with
  | Some text => ret text
  | None => ([], Raise (HandlerExit h))
  end.

Definition confirm (text : string) : M bool :=
  emit (EConfirm text (confirm_answer w)) ;; ret (confirm_answer w).

Definition run_command (command : string) : M unit :=
  emit (ERunCommand command).

(** ** [main] *)

Definition main (i : Invocation) : M unit :=
  let stdin_passed := negb (stdin_isatty w) in
  prompt <- (if stdin_passed && negb (truthy (repl i))
             then s <- stdin_read ;;
                  ret (Some (s ++ or_empty (prompt i))%string)
             else ret (prompt i)) ;;
  when (negb (truthy prompt) && negb (editor i) && negb (truthy (repl i)))
    (raise (MissingParameter "PROMPT" "string")) ;;
  when (shell i && code i)
    (raise (BadArgumentUsage
              "--shell and --code options cannot be used together.")) ;;
  when (truthy (chat i) && truthy (repl i))
    (raise (BadArgumentUsage
              "--chat and --repl options cannot be used together.")) ;;
  when (editor i && stdin_passed)
    (raise (BadArgumentUsage
              "--editor option cannot be used with stdin input.")) ;;
  prompt <- (if editor i
             then s <- get_edited_prompt ;; ret (Some s)
             else ret prompt) ;;
  api_host <- cfg_get "OPENAI_API_HOST" ;;
  api_key <- cfg_get "OPENAI_API_KEY" ;;
  client <- new_client api_host api_key ;;
  when (truthy (repl i))
    (_ <- handle (ReplHandler client (repl i) (shell i) (code i))
           {| ha_prompt := prompt; ha_model := model i;
              ha_temperature := temperature i;
              ha_top_probability := top_probability i;
              ha_chat_id := repl i; ha_caching := cache i |} ;;
     ret tt) ;;
  full_completion <-
    (if truthy (chat i)
     then handle (ChatHandler client (chat i) (shell i) (code i))
            {| ha_prompt := prompt; ha_model := model i;
               ha_temperature := temperature i;
               ha_top_probability := top_probability i;
               ha_chat_id := chat i; ha_caching := cache i |}
     else handle (DefaultHandler client (shell i) (code i))
            {| ha_prompt := prompt; ha_model := model i;
               ha_temperature := temperature i;
               ha_top_probability := top_probability i;
               ha_chat_id := None; ha_caching := cache i |}) ;;
  if shell i && negb stdin_passed
  then yes <- confirm "Execute shell command?" ;;
       when yes (run_command full_completion)
  else ret tt.

End Collaborators.

Arguments truthy : simpl never.

(** ** Observations on a run *)

(** [stdin_passed = not sys.stdin.isatty()] (line 90). *)
Definition stdin_passed (w : World) : bool := negb (stdin_isatty w).

(** The value of [prompt] after lines 92-93. *)
Definition effective_prompt (w : World) (i : Invocation) : option string :=
  if stdin_passed w && negb (truthy (repl i))
  then Some (stdin_text w ++ or_empty (prompt i))%string
  else prompt i.

(** The condition of line 95. *)
Definition missing_prompt (w : World) (i : Invocation) : bool :=
  negb (truthy (effective_prompt w i)) && negb (editor i)
  && negb (truthy (repl i)).

(** The four errors [main] raises. *)
Definition err_missing_prompt : ClickException :=
  MissingParameter "PROMPT" "string".
Definition err_shell_code : ClickException :=
  BadArgumentUsage "--shell and --code options cannot be used together.".
Definition err_chat_repl : ClickException :=
  BadArgumentUsage "--chat and --repl options cannot be used together.".
Definition err_editor_stdin : ClickException :=
  BadArgumentUsage "--editor option cannot be used with stdin input.".

Definition is_bad_argument_usage (r : Result unit) : bool :=
  match r with
  | Raise (Click (BadArgumentUsage _)) => true
  | _ => false
  end.

Definition is_usage_error (r : Result unit) : bool :=
  match r with
  | Raise (Click _) => true
  | _ => false
  end.

(** The calls to [handle] of a trace, in order. *)
Fixpoint calls (tr : list Event) : list (Handler * HandleArgs) :=
  match tr with
  | [] => []
  | EHandle h a :: tr => (h, a) :: calls tr
  | _ :: tr => calls tr
  end.

Inductive Variant := Repl | Chat | Default.

Definition variant_of (h : Handler) : Variant :=
  match h with
  | ReplHandler _ _ _ _ => Repl
  | ChatHandler _ _ _ _ => Chat
  | DefaultHandler _ _ _ => Default
  end.

(** The handler variants a trace invokes, in order. *)
Definition invoked (tr : list Event) : list Variant :=
  map (fun c => variant_of (fst c)) (calls tr).

(** A trace that reaches no collaborator but standard input: no editor, no
    configuration lookup, no client, no handler (hence no network call,
    nothing cached or persisted), no confirmation, no command. *)
Definition only_stdin (tr : list Event) : bool :=
  forallb (fun ev => match ev with EStdinRead => true | _ => false end) tr.

Definition confirmed (tr : list Event) (answer : bool) : Prop :=
  exists text, In (EConfirm text answer) tr.

Definition executed (tr : list Event) (command : string) : Prop :=
  In (ERunCommand command) tr.

(** ** Sample worlds and invocations *)

Definition tty_world : World :=
  {| stdin_isatty := true; stdin_text := ""; edited_prompt := "from editor";
     cfg := fun key => key; handler := fun _ _ => Some "ls -la";
     confirm_answer := false |}.

Definition piped_world : World :=
  {| stdin_isatty := false; stdin_text := "a.txt b.txt ";
     edited_prompt := "from editor";
     cfg := fun key => key; handler := fun _ _ => Some "ls -la";
     confirm_answer := true |}.

(** The defaults of the signature, with no prompt; the default model is
    whatever the configuration names under DEFAULT_MODEL. *)
Definition bare : Invocation :=
  {| prompt := None; model := "gpt-3.5-turbo";
     temperature := float_0_1; top_probability := float_1_0;
     shell := false; code := false; editor := false; cache := true;
     chat := None; repl := None; show_chat := None; list_chat := false |}.

Definition with_prompt (p : string) (i : Invocation) : Invocation :=
  {| prompt := Some p; model := model i;
     temperature := temperature i; top_probability := top_probability i;
     shell := shell i; code := code i; editor := editor i; cache := cache i;
     chat := chat i; repl := repl i; show_chat := show_chat i;
     list_chat := list_chat i |}.

Definition with_modes (s c e : bool) (i : Invocation) : Invocation :=
  {| prompt := prompt i; model := model i;
     temperature := temperature i; top_probability := top_probability i;
     shell := s; code := c; editor := e; cache := cache i;
     chat := chat i; repl := repl i; show_chat := show_chat i;
     list_chat := list_chat i |}.

Definition with_chat_repl (c r : option string) (i : Invocation) : Invocation :=
  {| prompt := prompt i; model := model i;
     temperature := temperature i; top_probability := top_probability i;
     shell := shell i; code := code i; editor := editor i; cache := cache i;
     chat := c; repl := r; show_chat := show_chat i;
     list_chat := list_chat i |}.

(** ** Proof automation *)

(** Case analysis follows the control flow of [main]: the run is named, the
    test it is stuck on is split, and the run is simplified again, until it
    is a trace and a result. *)
Ltac stuck t :=
  lazymatch t with
  | match ?b with _ => _ end => stuck b
  | negb ?b => stuck b
  | andb ?b _ => stuck b
  | _ => t
  end.

Ltac known :=
  repeat match goal with
         | H : _ = true |- _ => rewrite H in *
         | H : _ = false |- _ => rewrite H in *
         end.

Ltac step Hr :=
  lazymatch type of Hr with
  | _ = (_, _) => fail
  | _ = ?m =>
      let b := stuck m in
      let E := fresh "E" in
      destruct b eqn:E; rewrite ?E in *; cbn in *; try discriminate
  end.

Ltac run :=
  unfold missing_prompt, effective_prompt, stdin_passed in *;
  lazymatch goal with
  | |- context [main ?w ?i] =>
      let r := fresh "r" in
      let Hr := fresh "Hr" in
      remember (main w i) as r eqn:Hr;
      unfold main, bind, stdin_passed, when, handle, stdin_read,
        get_edited_prompt, cfg_get, new_client, confirm, run_command, raise,
        emit, ret in Hr;
      known; cbn in *; try discriminate;
      repeat step Hr; subst r; cbn in *
  end.

(** A run from end to end: prompt "list files" in shell mode on a terminal,
    the handler answers [ls -la], the user declines. *)
Example shell_confirm_declined :
  main tty_world (with_prompt "list files" (with_modes true false false bare))
  = ([ECfgGet "OPENAI_API_HOST"; ECfgGet "OPENAI_API_KEY";
      EClient {| api_host := "OPENAI_API_HOST"; api_key := "OPENAI_API_KEY" |};
      EHandle (DefaultHandler
                 {| api_host := "OPENAI_API_HOST";
                    api_key := "OPENAI_API_KEY" |} true false)
        {| ha_prompt := Some "list files"; ha_model := "gpt-3.5-turbo";
           ha_temperature := float_0_1; ha_top_probability := float_1_0;
           ha_chat_id := None; ha_caching := true |};
      EConfirm "Execute shell command?" false], Ok tt).
Proof. reflexivity. Qed.

(** ** The configuration checks (lines 90-105) *)

(** C7: when the effective prompt is empty (no prompt argument and nothing
    read from standard input) and neither the editor flag nor the repl flag
    is set, [main] raises the missing-parameter error for PROMPT, having
    reached no collaborator but standard input: no client is constructed and
    no handler runs, so no network call is made. *)
Theorem missing_prompt_rejected (w : World) (i : Invocation) :
  truthy (effective_prompt w i) = false ->
  editor i = false ->
  truthy (repl i) = false ->
  result (main w i) = Raise (Click err_missing_prompt)
  /\ only_stdin (trace (main w i)) = true
  /\ calls (trace (main w i)) = [].
Proof.
  intros Hp He Hr. run; auto.
Qed.

Lemma missing_prompt_rejected_witness :
  truthy (effective_prompt tty_world bare) = false
  /\ result (main tty_world bare) = Raise (Click err_missing_prompt)
  /\ only_stdin (trace (main tty_world bare)) = true
  /\ calls (trace (main tty_world bare)) = [].
Proof.
  split; [reflexivity |].
  apply (missing_prompt_rejected tty_world bare); reflexivity.
Defined.

(** The missing-prompt check comes first: with [--shell --code] and nothing
    else on a terminal, the error is click's MissingParameter, which is not
    a BadArgumentUsage. *)
Lemma shell_code_without_prompt :
  shell (with_modes true true false bare) = true
  /\ code (with_modes true true false bare) = true
  /\ result (main tty_world (with_modes true true false bare))
     = Raise (Click err_missing_prompt)
  /\ is_bad_argument_usage
       (result (main tty_world (with_modes true true false bare))) = false.
Proof. repeat split. Qed.

(** C1, amended: when both the shell flag and the code flag are set, [main]
    raises a configuration error having reached no collaborator but standard
    input (no client, no handler, no network call).  The error is the
    bad-argument-usage error of line 99, unless the check of line 95 fires
    first (empty effective prompt, no editor, no repl): then it is the
    missing-parameter error. *)
Theorem shell_code_rejected (w : World) (i : Invocation) :
  shell i = true ->
  code i = true ->
  result (main w i)
  = Raise (Click (if missing_prompt w i
                  then err_missing_prompt else err_shell_code))
  /\ only_stdin (trace (main w i)) = true
  /\ calls (trace (main w i)) = [].
Proof.
  intros Hs Hc. run; auto.
Qed.

Lemma shell_code_rejected_witness :
  shell (with_prompt "ls" (with_modes true true false bare)) = true
  /\ result (main piped_world (with_prompt "ls" (with_modes true true false bare)))
     = Raise (Click err_shell_code)
  /\ only_stdin
       (trace (main piped_world
                 (with_prompt "ls" (with_modes true true false bare)))) = true
  /\ calls
       (trace (main piped_world
                 (with_prompt "ls" (with_modes true true false bare)))) = [].
Proof.
  split; [reflexivity |].
  apply (shell_code_rejected piped_world
           (with_prompt "ls" (with_modes true true false bare)));
    reflexivity.
Defined.

(** C5: when both the chat flag and the repl flag carry a non-empty value,
    [main] raises a bad-argument-usage error (the one of line 99 when shell
    and code are set as well, the one of line 102 otherwise) and its trace is
    empty: no handler is invoked, nor anything else. *)
Theorem chat_repl_rejected (w : World) (i : Invocation) :
  truthy (chat i) = true ->
  truthy (repl i) = true ->
  main w i
  = ([], Raise (Click (if shell i && code i
                       then err_shell_code else err_chat_repl)))
  /\ is_bad_argument_usage (result (main w i)) = true.
Proof.
  intros Hc Hr. run; auto.
Qed.

Lemma chat_repl_rejected_witness :
  truthy (chat (with_chat_repl (Some "a") (Some "b") bare)) = true
  /\ truthy (repl (with_chat_repl (Some "a") (Some "b") bare)) = true
  /\ main piped_world (with_chat_repl (Some "a") (Some "b") bare)
     = ([], Raise (Click err_chat_repl))
  /\ is_bad_argument_usage
       (result (main piped_world (with_chat_repl (Some "a") (Some "b") bare)))
     = true.
Proof.
  split; [reflexivity | split; [reflexivity |]].
  apply (chat_repl_rejected piped_world
           (with_chat_repl (Some "a") (Some "b") bare)); reflexivity.
Defined.

(** C6: when the editor flag is set and standard input is not a terminal,
    [main] raises a bad-argument-usage error (the first of lines 99, 102 and
    105 whose condition holds) having reached no collaborator but standard
    input: the editor is not opened and no handler is invoked. *)
Theorem editor_stdin_rejected (w : World) (i : Invocation) :
  editor i = true ->
  stdin_isatty w = false ->
  result (main w i)
  = Raise (Click (if shell i && code i then err_shell_code
                  else if truthy (chat i) && truthy (repl i)
                       then err_chat_repl else err_editor_stdin))
  /\ is_bad_argument_usage (result (main w i)) = true
  /\ ~ In EEditor (trace (main w i))
  /\ only_stdin (trace (main w i)) = true
  /\ calls (trace (main w i)) = [].
Proof.
  intros He Ht. run; repeat split; auto; intros [? | []]; discriminate.
Qed.

Lemma editor_stdin_rejected_witness :
  editor (with_modes false false true bare) = true
  /\ stdin_isatty piped_world = false
  /\ result (main piped_world (with_modes false false true bare))
     = Raise (Click err_editor_stdin)
  /\ is_bad_argument_usage
       (result (main piped_world (with_modes false false true bare))) = true
  /\ ~ In EEditor (trace (main piped_world (with_modes false false true bare)))
  /\ only_stdin (trace (main piped_world (with_modes false false true bare)))
     = true
  /\ calls (trace (main piped_world (with_modes false false true bare))) = [].
Proof.
  split; [reflexivity | split; [reflexivity |]].
  apply (editor_stdin_rejected piped_world (with_modes false false true bare));
    reflexivity.
Defined.

(** C4: whenever [main] raises a configuration error, it is one of the four
    of lines 96, 99, 102 and 105, and the run has reached no collaborator
    but standard input: the error precedes the construction of the client
    and every handler invocation, so no network call is made and nothing is
    cached or persisted. *)
Theorem usage_error_is_early (w : World) (i : Invocation) (e : ClickException) :
  result (main w i) = Raise (Click e) ->
  In e [err_missing_prompt; err_shell_code; err_chat_repl; err_editor_stdin]
  /\ only_stdin (trace (main w i)) = true
  /\ (forall c, ~ In (EClient c) (trace (main w i)))
  /\ calls (trace (main w i)) = [].
Proof.
  revert e. run; intros e H; inversion H; subst; repeat split; auto;
    intros c Hc; intuition discriminate.
Qed.

Lemma usage_error_is_early_witness :
  result (main piped_world (with_modes false false true bare))
  = Raise (Click err_editor_stdin)
  /\ In err_editor_stdin
       [err_missing_prompt; err_shell_code; err_chat_repl; err_editor_stdin]
  /\ only_stdin (trace (main piped_world (with_modes false false true bare)))
     = true
  /\ (forall c,
        ~ In (EClient c)
            (trace (main piped_world (with_modes false false true bare))))
  /\ calls (trace (main piped_world (with_modes false false true bare))) = [].
Proof.
  split; [reflexivity |].
  apply (usage_error_is_early piped_world (with_modes false false true bare)
           err_editor_stdin).
  reflexivity.
Defined.

(** ** Dispatch (lines 114-141) *)

(** The handler variant the mode flags select, in the spec's words: Repl
    when the repl flag is given, otherwise Chat when the chat flag is given,
    otherwise Default. *)
Definition spec_selected_variant (i : Invocation) : Variant :=
  if truthy (repl i) then Repl
  else if truthy (chat i) then Chat
  else Default.

(** The Repl handler of this world never returns: its loop ends by an exit
    or an interrupt raised inside [handle]. *)
Definition repl_never_returns (w : World) : Prop :=
  forall h a, variant_of h = Repl -> handler w h a = None.

(** A rejected run invokes no handler at all, so "exactly one handler for
    every invocation" fails on it. *)
Lemma rejected_run_invokes_no_handler :
  invoked (trace (main tty_world
                    (with_prompt "ls" (with_modes true true false bare)))) = []
  /\ invoked (trace (main tty_world
                       (with_prompt "ls" (with_modes true true false bare))))
     <> [spec_selected_variant
           (with_prompt "ls" (with_modes true true false bare))].
Proof. split; [reflexivity | discriminate]. Qed.

Ltac contradict_repl H :=
  match goal with
  | E : handler _ ?h ?a = Some _ |- _ =>
      rewrite (H h a eq_refl) in E; discriminate E
  end.

(** C2, amended: on every invocation that passes the configuration checks,
    the first handler invoked is the one the mode flags select (Repl when
    repl is given, otherwise Chat when chat is given, otherwise Default);
    and when repl is not given, or the Repl handler does not return, that
    handler is the only one invoked. *)
Theorem one_handler_selected (w : World) (i : Invocation) :
  is_usage_error (result (main w i)) = false ->
  hd_error (invoked (trace (main w i))) = Some (spec_selected_variant i)
  /\ (truthy (repl i) = false \/ repl_never_returns w ->
      invoked (trace (main w i)) = [spec_selected_variant i]).
Proof.
  unfold spec_selected_variant, repl_never_returns.
  run; intros Hok; try discriminate Hok; (split; [reflexivity |]);
    try reflexivity; intros [H | H]; try discriminate H; contradict_repl H.
Qed.

Lemma one_handler_selected_witness :
  is_usage_error (result (main tty_world (with_prompt "hello" bare))) = false
  /\ hd_error (invoked (trace (main tty_world (with_prompt "hello" bare))))
     = Some Default
  /\ invoked (trace (main tty_world (with_prompt "hello" bare))) = [Default].
Proof.
  split; [reflexivity |].
  destruct (one_handler_selected tty_world (with_prompt "hello" bare)
              eq_refl) as [Hfirst Honly].
  split; [exact Hfirst | apply Honly; left; reflexivity].
Defined.

(** X4: the [if repl:] of line 114 has no [else]: on a run where the Repl
    handler returns, line 125 goes on and the Default handler is invoked
    after it. *)
Lemma repl_return_falls_through (w : World) (i : Invocation) (h : Handler)
    (a : HandleArgs) (text : string) :
  is_usage_error (result (main w i)) = false ->
  In (h, a) (calls (trace (main w i))) ->
  variant_of h = Repl ->
  handler w h a = Some text ->
  invoked (trace (main w i)) = [Repl; Default].
Proof.
  run; intros Hok Hin Hv Hh; try discriminate Hok; try reflexivity;
    cbn in Hin;
    repeat (destruct Hin as [Hin | Hin]; [inversion Hin; subst |]);
    try discriminate; try contradiction; congruence.
Qed.

Definition returning_world : World :=
  {| stdin_isatty := true; stdin_text := ""; edited_prompt := "from editor";
     cfg := fun key => key; handler := fun _ _ => Some "echo hi";
     confirm_answer := true |}.

Example repl_then_default :
  invoked (trace (main returning_world (with_chat_repl None (Some "s") bare)))
  = [Repl; Default].
Proof. reflexivity. Qed.

(** X1: [main] hands the model, the two sampling parameters and the cache
    flag to every handler it invokes as it received them. *)
Lemma options_forwarded (w : World) (i : Invocation) (h : Handler)
    (a : HandleArgs) :
  In (h, a) (calls (trace (main w i))) ->
  ha_model a = model i
  /\ ha_temperature a = temperature i
  /\ ha_top_probability a = top_probability i
  /\ ha_caching a = cache i.
Proof.
  run; intros Hin; try contradiction;
    repeat (destruct Hin as [Hin | Hin]; [inversion Hin; subst; cbn; auto |]);
    contradiction.
Qed.

(** X2: every handler invoked receives as prompt the edited text when the
    editor flag is set, and the value of [prompt] after lines 92-93
    otherwise. *)
Lemma prompt_handed_over (w : World) (i : Invocation) (h : Handler)
    (a : HandleArgs) :
  In (h, a) (calls (trace (main w i))) ->
  ha_prompt a
  = if editor i then Some (edited_prompt w) else effective_prompt w i.
Proof.
  run; intros Hin; try contradiction;
    repeat (destruct Hin as [Hin | Hin]; [inversion Hin; subst; cbn; auto |]);
    contradiction.
Qed.

(** ** Execution of the completion (lines 143-144) *)

Fixpoint last_call (cs : list (Handler * HandleArgs))
  : option (Handler * HandleArgs) :=
  match cs with
  | [] => None
  | [c] => Some c
  | _ :: cs => last_call cs
  end.

(** The text the last handler invoked returned: [full_completion]. *)
Definition final_completion (w : World) (tr : list Event) : option string :=
  match last_call (calls tr) with
  | Some (h, a) => handler w h a
  | None => None
  end.

Ltac in_trace :=
  cbn in *;
  repeat match goal with
         | H : _ \/ _ |- _ => destruct H as [H | H]
         | H : False |- _ => destruct H
         | H : exists _, _ |- _ => destruct H as [? H]
         | H : _ /\ _ |- _ => destruct H as [? H]
         | H : @eq Event _ _ |- _ => inversion H; subst; clear H
         | H : @eq bool _ _ |- _ => discriminate H
         end.

(** C3: the confirmation prompt is shown exactly when shell mode is set,
    standard input is a terminal and the last handler has returned a
    completion, and it records the user's answer; a command is executed
    exactly when, moreover, that answer is yes, and the command is that
    completion.  So the run executes a command exactly when shell mode is
    set and the prompt was answered yes; when it is answered no, no command
    is executed and [main] returns normally. *)
Theorem executed_iff_shell_confirmed (w : World) (i : Invocation) :
  (forall text answer,
     In (EConfirm text answer) (trace (main w i))
     <-> text = "Execute shell command?" /\ answer = confirm_answer w
         /\ shell i = true /\ stdin_isatty w = true
         /\ final_completion w (trace (main w i)) <> None)
  /\ (forall c,
        executed (trace (main w i)) c
        <-> shell i = true /\ stdin_isatty w = true
            /\ confirm_answer w = true
            /\ final_completion w (trace (main w i)) = Some c)
  /\ ((exists c, executed (trace (main w i)) c)
      <-> shell i = true /\ confirmed (trace (main w i)) true)
  /\ (confirmed (trace (main w i)) false ->
      (forall c, ~ executed (trace (main w i)) c)
      /\ result (main w i) = Ok tt).
Proof.
  unfold executed, confirmed, final_completion.
  run;
    (split; [intros text answer; split; intros H
            | split; [intros c; split; intros H
                     | split; [split; intros H | intros H]]]);
    in_trace;
    repeat match goal with
           | E : handler _ _ _ = _ |- _ => rewrite E in *
           end;
    solve [ congruence | tauto | intuition congruence
          | repeat split; auto; congruence
          | eauto 12
          | split; [reflexivity | eexists; cbn; eauto 12]
          | split; [intros c Hc; in_trace | reflexivity] ].
Qed.

Lemma executed_iff_shell_confirmed_witness :
  executed
    (trace (main returning_world
              (with_prompt "list files" (with_modes true false false bare))))
    "echo hi"
  /\ (confirmed
        (trace (main tty_world
                  (with_prompt "list files"
                     (with_modes true false false bare))))
        false
      /\ (forall c,
            ~ executed
                (trace (main tty_world
                          (with_prompt "list files"
                             (with_modes true false false bare)))) c)
      /\ result (main tty_world
                   (with_prompt "list files"
                      (with_modes true false false bare)))
         = Ok tt).
Proof.
  split.
  - apply (proj2 (proj1 (proj2 (executed_iff_shell_confirmed returning_world
                                  (with_prompt "list files"
                                     (with_modes true false false bare))))
                    "echo hi")).
    repeat split.
  - assert (H : confirmed
                  (trace (main tty_world
                            (with_prompt "list files"
                               (with_modes true false false bare)))) false).
    { exists "Execute shell command?". cbn. do 4 right. left. reflexivity. }
    split; [exact H |].
    apply (executed_iff_shell_confirmed tty_world
             (with_prompt "list files" (with_modes true false false bare))).
    exact H.
Defined.

(** C10: with shell mode set and standard input piped, the confirmation
    prompt is never shown and no command is executed, whatever the handlers
    return. *)
Theorem piped_shell_never_executes (w : World) (i : Invocation) :
  shell i = true ->
  stdin_isatty w = false ->
  (forall text answer, ~ In (EConfirm text answer) (trace (main w i)))
  /\ (forall c, ~ executed (trace (main w i)) c).
Proof.
  unfold executed.
  intros Hs Ht. run; split; intros; intros Hin; in_trace.
Qed.

Lemma piped_shell_never_executes_witness :
  shell (with_modes true false false bare) = true
  /\ stdin_isatty piped_world = false
  /\ (forall text answer,
        ~ In (EConfirm text answer)
            (trace (main piped_world (with_modes true false false bare))))
  /\ (forall c,
        ~ executed
            (trace (main piped_world (with_modes true false false bare))) c).
Proof.
  split; [reflexivity | split; [reflexivity |]].
  apply (piped_shell_never_executes piped_world
           (with_modes true false false bare)); reflexivity.
Defined.

(** ** The prompt handed to the handler (lines 90-93) *)

Definition with_stdin_text (s : string) (w : World) : World :=
  {| stdin_isatty := stdin_isatty w; stdin_text := s;
     edited_prompt := edited_prompt w; cfg := cfg w; handler := handler w;
     confirm_answer := confirm_answer w |}.

(** With the repl flag set, the run is the same whatever standard input
    holds. *)
Lemma repl_ignores_stdin (w : World) (i : Invocation) (s : string) :
  truthy (repl i) = true ->
  main (with_stdin_text s w) i = main w i.
Proof.
  intros Hr. unfold main, stdin_read. cbn. rewrite Hr.
  destruct (stdin_isatty w); reflexivity.
Qed.

(** C9: when standard input is piped and the repl flag is not set, standard
    input is read and (unless a configuration error stops the run) the one
    handler invoked receives as prompt the text of standard input followed
    by the prompt argument; when the repl flag is set, standard input is not
    read, its text has no influence on the run, and with piped input every
    handler invoked receives the prompt argument as it is. *)
Theorem piped_prompt (w : World) (i : Invocation) :
  (stdin_isatty w = false ->
   truthy (repl i) = false ->
   In EStdinRead (trace (main w i))
   /\ (is_usage_error (result (main w i)) = false ->
       exists h a,
         calls (trace (main w i)) = [(h, a)]
         /\ ha_prompt a
            = Some (stdin_text w ++ or_empty (prompt i))%string))
  /\ (truthy (repl i) = true ->
      ~ In EStdinRead (trace (main w i))
      /\ (forall s, main (with_stdin_text s w) i = main w i)
      /\ (stdin_isatty w = false ->
          forall h a,
            In (h, a) (calls (trace (main w i))) -> ha_prompt a = prompt i)).
Proof.
  split.
  - intros Ht Hr.
    run; (split; [auto |]); intros Hok; try discriminate Hok; eauto.
  - intros Hr. split; [| split].
    + run; intros Hin; in_trace.
    + intros s. apply repl_ignores_stdin. exact Hr.
    + intros Ht. run; intros h a Hin; in_trace;
        repeat match goal with
               | H : (_, _) = (_, _) |- _ => inversion H; subst; clear H
               end; reflexivity.
Qed.

Lemma piped_prompt_witness :
  (In EStdinRead (trace (main piped_world (with_prompt "count" bare)))
   /\ exists h a,
       calls (trace (main piped_world (with_prompt "count" bare))) = [(h, a)]
       /\ ha_prompt a = Some "a.txt b.txt count")
  /\ (forall s,
        main (with_stdin_text s piped_world)
          (with_chat_repl None (Some "s") (with_prompt "count" bare))
        = main piped_world
            (with_chat_repl None (Some "s") (with_prompt "count" bare))).
Proof.
  split.
  - destruct (proj1 (piped_prompt piped_world (with_prompt "count" bare))
                eq_refl eq_refl) as [Hread Hcall].
    split; [exact Hread | exact (Hcall eq_refl)].
  - apply (proj2 (piped_prompt piped_world
                    (with_chat_repl None (Some "s")
                       (with_prompt "count" bare))) eq_refl).
Defined.

(** ** Further properties of [main] *)

Definition chat_world : World :=
  {| stdin_isatty := true; stdin_text := ""; edited_prompt := "from editor";
     cfg := fun key => ("value of " ++ key)%string;
     handler := fun h _ => match h with
                           | ReplHandler _ _ _ _ => None
                           | _ => Some "hello"
                           end;
     confirm_answer := true |}.

Definition with_prompt_arg (p : option string) (i : Invocation) : Invocation :=
  {| prompt := p; model := model i;
     temperature := temperature i; top_probability := top_probability i;
     shell := shell i; code := code i; editor := editor i; cache := cache i;
     chat := chat i; repl := repl i; show_chat := show_chat i;
     list_chat := list_chat i |}.

Lemma options_forwarded_witness :
  ha_model {| ha_prompt := Some "hello"; ha_model := "gpt-3.5-turbo";
              ha_temperature := float_0_1; ha_top_probability := float_1_0;
              ha_chat_id := None; ha_caching := true |}
  = model (with_prompt "hello" bare)
  /\ ha_temperature
       {| ha_prompt := Some "hello"; ha_model := "gpt-3.5-turbo";
          ha_temperature := float_0_1; ha_top_probability := float_1_0;
          ha_chat_id := None; ha_caching := true |}
     = temperature (with_prompt "hello" bare)
  /\ ha_top_probability
       {| ha_prompt := Some "hello"; ha_model := "gpt-3.5-turbo";
          ha_temperature := float_0_1; ha_top_probability := float_1_0;
          ha_chat_id := None; ha_caching := true |}
     = top_probability (with_prompt "hello" bare)
  /\ ha_caching
       {| ha_prompt := Some "hello"; ha_model := "gpt-3.5-turbo";
          ha_temperature := float_0_1; ha_top_probability := float_1_0;
          ha_chat_id := None; ha_caching := true |}
     = cache (with_prompt "hello" bare).
Proof.
  apply (options_forwarded tty_world (with_prompt "hello" bare)
           (DefaultHandler {| api_host := "OPENAI_API_HOST";
                              api_key := "OPENAI_API_KEY" |} false false)).
  cbn. left. reflexivity.
Defined.

Lemma prompt_handed_over_witness :
  ha_prompt {| ha_prompt := Some "from editor"; ha_model := "gpt-3.5-turbo";
               ha_temperature := float_0_1; ha_top_probability := float_1_0;
               ha_chat_id := None; ha_caching := true |}
  = if editor (with_modes false false true (with_prompt "dropped" bare))
    then Some (edited_prompt tty_world)
    else effective_prompt tty_world
           (with_modes false false true (with_prompt "dropped" bare)).
Proof.
  apply (prompt_handed_over tty_world
           (with_modes false false true (with_prompt "dropped" bare))
           (DefaultHandler {| api_host := "OPENAI_API_HOST";
                              api_key := "OPENAI_API_KEY" |} false false)).
  cbn. left. reflexivity.
Defined.

Lemma repl_return_falls_through_witness :
  invoked (trace (main returning_world (with_chat_repl None (Some "s") bare)))
  = [Repl; Default].
Proof.
  apply (repl_return_falls_through returning_world
           (with_chat_repl None (Some "s") bare)
           (ReplHandler {| api_host := "OPENAI_API_HOST";
                           api_key := "OPENAI_API_KEY" |} (Some "s")
              false false)
           {| ha_prompt := None; ha_model := "gpt-3.5-turbo";
              ha_temperature := float_0_1; ha_top_probability := float_1_0;
              ha_chat_id := Some "s"; ha_caching := true |}
           "echo hi").
  - reflexivity.
  - cbn. left. reflexivity.
  - reflexivity.
  - reflexivity.
Defined.

(** The checks of lines 95-105 in their order, as a function of the
    invocation: the first one that fails, if any. *)
Definition first_failed_check (w : World) (i : Invocation)
  : option ClickException :=
  if missing_prompt w i then Some err_missing_prompt
  else if shell i && code i then Some err_shell_code
  else if truthy (chat i) && truthy (repl i) then Some err_chat_repl
  else if editor i && stdin_passed w then Some err_editor_stdin
  else None.

(** X5: [main] raises one of its configuration errors exactly when one of
    the four checks fails, and the error is that of the first failing check
    in the order missing prompt, shell+code, chat+repl, editor+stdin; an
    invocation that passes the four checks goes on to line 107: after the
    read of standard input, if any, its next action is to open the editor
    when the editor flag is set, and to look up OPENAI_API_HOST otherwise. *)
Theorem usage_error_characterised (w : World) (i : Invocation) :
  (forall e, result (main w i) = Raise (Click e)
             <-> first_failed_check w i = Some e)
  /\ (first_failed_check w i = None ->
      exists rest,
        trace (main w i)
        = (if stdin_passed w && negb (truthy (repl i))
           then [EStdinRead] else [])
          ++ (if editor i then EEditor else ECfgGet "OPENAI_API_HOST")
             :: rest).
Proof.
  unfold first_failed_check.
  run; (split; [intros e; split; intros H; inversion H; reflexivity |]);
    intros H; try discriminate H; eexists; reflexivity.
Qed.

Lemma usage_error_characterised_witness :
  first_failed_check chat_world (with_prompt "hello" bare) = None
  /\ exists rest,
       trace (main chat_world (with_prompt "hello" bare))
       = ECfgGet "OPENAI_API_HOST" :: rest.
Proof.
  split; [reflexivity |].
  apply (proj2 (usage_error_characterised chat_world
                  (with_prompt "hello" bare))).
  reflexivity.
Defined.

(** The client built on lines 110-112. *)
Definition configured_client (w : World) : OpenAIClient :=
  {| api_host := cfg w "OPENAI_API_HOST"; api_key := cfg w "OPENAI_API_KEY" |}.

Definition client_of (h : Handler) : OpenAIClient :=
  match h with
  | ReplHandler c _ _ _ | ChatHandler c _ _ _ | DefaultHandler c _ _ => c
  end.

Definition modes_of (h : Handler) : bool * bool :=
  match h with
  | ReplHandler _ _ s c | ChatHandler _ _ s c | DefaultHandler _ s c => (s, c)
  end.

(** X6: every handler invoked is built on the client made from the
    configured host and key and on the shell and code flags as given; the
    Repl handler is bound to the repl value and the Chat handler to the chat
    value, both as constructor id and as [chat_id], and the Default handler
    is handed no [chat_id]. *)
Theorem handler_construction (w : World) (i : Invocation) (h : Handler)
    (a : HandleArgs) :
  In (h, a) (calls (trace (main w i))) ->
  client_of h = configured_client w
  /\ modes_of h = (shell i, code i)
  /\ match h with
     | ReplHandler _ id _ _ => id = repl i /\ ha_chat_id a = repl i
     | ChatHandler _ id _ _ => id = chat i /\ ha_chat_id a = chat i
     | DefaultHandler _ _ _ => ha_chat_id a = None
     end.
Proof.
  unfold configured_client.
  run; intros Hin; try contradiction;
    repeat (destruct Hin as [Hin | Hin]; [inversion Hin; subst; cbn; auto |]);
    contradiction.
Qed.

Lemma handler_construction_witness :
  client_of (ChatHandler (configured_client chat_world) (Some "demo")
               false false)
  = configured_client chat_world
  /\ modes_of (ChatHandler (configured_client chat_world) (Some "demo")
                 false false)
     = (false, false)
  /\ (Some "demo" = Some "demo"
      /\ ha_chat_id
           {| ha_prompt := Some "hello"; ha_model := "gpt-3.5-turbo";
              ha_temperature := float_0_1; ha_top_probability := float_1_0;
              ha_chat_id := Some "demo"; ha_caching := true |}
         = Some "demo").
Proof.
  apply (handler_construction chat_world
           (with_chat_repl (Some "demo") None (with_prompt "hello" bare))
           (ChatHandler (configured_client chat_world) (Some "demo")
              false false)
           {| ha_prompt := Some "hello"; ha_model := "gpt-3.5-turbo";
              ha_temperature := float_0_1; ha_top_probability := float_1_0;
              ha_chat_id := Some "demo"; ha_caching := true |}).
  cbn. left. reflexivity.
Defined.

(** The configuration lookups and client constructions of a trace. *)
Definition setup (tr : list Event) : list Event :=
  filter (fun ev => match ev with
                    | ECfgGet _ | EClient _ => true
                    | _ => false
                    end) tr.

(** X7: the body of [main] looks up no configuration key but
    OPENAI_API_HOST and then OPENAI_API_KEY, each at most once and in that
    order, and builds at most one client, after the two lookups and from the
    two values looked up. *)
Theorem setup_once (w : World) (i : Invocation) :
  exists n,
    setup (trace (main w i))
    = firstn n [ECfgGet "OPENAI_API_HOST"; ECfgGet "OPENAI_API_KEY";
                EClient (configured_client w)].
Proof.
  unfold configured_client.
  run; solve [exists 0; reflexivity | exists 3; reflexivity].
Qed.

Lemma setup_once_witness :
  exists n,
    setup (trace (main chat_world (with_prompt "hello" bare)))
    = firstn n [ECfgGet "OPENAI_API_HOST"; ECfgGet "OPENAI_API_KEY";
                EClient (configured_client chat_world)].
Proof.
  apply (setup_once chat_world (with_prompt "hello" bare)).
Defined.

(** The calls to the editor of a trace. *)
Definition editor_calls (tr : list Event) : list Event :=
  filter (fun ev => match ev with EEditor => true | _ => false end) tr.

(** X8: the editor is opened exactly when the editor flag is set and the
    four checks pass; it is then opened on a terminal and once, whether or
    not a prompt argument was given. *)
Theorem editor_opened_iff (w : World) (i : Invocation) :
  (In EEditor (trace (main w i))
   <-> editor i = true /\ first_failed_check w i = None)
  /\ (In EEditor (trace (main w i)) ->
      stdin_isatty w = true
      /\ editor_calls (trace (main w i)) = [EEditor]).
Proof.
  unfold first_failed_check.
  run; (split; [split; intros H | intros H]); in_trace; auto;
    try discriminate; tauto.
Qed.

(** X9: standard input is read exactly when it is not a terminal and the
    repl flag is unset; it is then the first thing the run does, and it is
    read once. *)
Theorem stdin_read_iff (w : World) (i : Invocation) :
  (In EStdinRead (trace (main w i))
   <-> stdin_isatty w = false /\ truthy (repl i) = false)
  /\ (In EStdinRead (trace (main w i)) ->
      exists rest,
        trace (main w i) = EStdinRead :: rest /\ ~ In EStdinRead rest).
Proof.
  run; (split; [split; intros H | intros H]); in_trace; auto;
    eexists; (split; [reflexivity |]); intros Hin; in_trace.
Qed.



(** X11: [main] returns normally only on a run that passed the four
    checks, on which every handler invoked returned, and whose last handler
    call, of the Chat handler when chat is given and of the Default handler
    otherwise, returned a completion. *)
Theorem returns_only_after_completion (w : World) (i : Invocation) :
  result (main w i) = Ok tt ->
  first_failed_check w i = None
  /\ (forall h a, In (h, a) (calls (trace (main w i))) ->
                  handler w h a <> None)
  /\ exists h a c,
       last_call (calls (trace (main w i))) = Some (h, a)
       /\ variant_of h = (if truthy (chat i) then Chat else Default)
       /\ handler w h a = Some c.
Proof.
  unfold first_failed_check.
  run; intros H; try discriminate H;
    (split; [reflexivity |]);
    (split; [intros h a Hin; in_trace;
             repeat match goal with
                    | H : (_, _) = (_, _) |- _ => inversion H; subst; clear H
                    end; congruence
            | do 3 eexists; (split; [reflexivity |]);
              split; [reflexivity | eassumption]]).
Qed.

Lemma returns_only_after_completion_witness :
  result (main tty_world (with_prompt "hello" bare)) = Ok tt
  /\ first_failed_check tty_world (with_prompt "hello" bare) = None
  /\ (forall h a,
        In (h, a) (calls (trace (main tty_world (with_prompt "hello" bare)))) ->
        handler tty_world h a <> None)
  /\ exists h a c,
       last_call (calls (trace (main tty_world (with_prompt "hello" bare))))
       = Some (h, a)
       /\ variant_of h = Default
       /\ handler tty_world h a = Some c.
Proof.
  split; [reflexivity |].
  apply (returns_only_after_completion tty_world (with_prompt "hello" bare)).
  reflexivity.
Defined.

(** X12: with the editor flag set the prompt argument plays no part: the
    run is the same whatever it is, the edited text replaces it (line 108)
    and its absence is no error (line 95). *)
Theorem editor_ignores_prompt_argument (w : World) (i : Invocation)
    (p : option string) :
  editor i = true ->
  main w (with_prompt_arg p i) = main w i.
Proof.
  intros He. unfold main, stdin_read, get_edited_prompt, when. cbn.
  rewrite He. cbn.
  destruct (stdin_isatty w), (truthy (repl i)); cbn;
    rewrite ?andb_false_r; cbn;
    destruct (shell i), (code i); cbn; try reflexivity;
    destruct (truthy (chat i)); reflexivity.
Qed.

Lemma editor_ignores_prompt_argument_witness :
  editor (with_modes false false true bare) = true
  /\ main tty_world
       (with_prompt_arg (Some "dropped") (with_modes false false true bare))
     = main tty_world (with_modes false false true bare).
Proof.
  split; [reflexivity |].
  apply (editor_ignores_prompt_argument tty_world
           (with_modes false false true bare) (Some "dropped")).
  reflexivity.
Defined.

(** X13: a chat or repl option given with an empty value is the same as
    the option not given at all. *)
Theorem empty_flag_is_absent (w : World) (i : Invocation)
    (c r : option string) :
  truthy c = false ->
  truthy r = false ->
  main w (with_chat_repl c r i) = main w (with_chat_repl None None i).
Proof.
  intros Hc Hr. unfold main, when. cbn.
  rewrite Hc, Hr. reflexivity.
Qed.

Lemma empty_flag_is_absent_witness :
  truthy (Some "") = false
  /\ main tty_world
       (with_chat_repl (Some "") (Some "") (with_prompt "hello" bare))
     = main tty_world (with_chat_repl None None (with_prompt "hello" bare)).
Proof.
  split; [reflexivity |].
  apply (empty_flag_is_absent tty_world (with_prompt "hello" bare)
           (Some "") (Some "")); reflexivity.
Defined.

Lemma editor_opened_iff_witness :
  In EEditor (trace (main tty_world (with_modes false false true bare)))
  /\ editor_calls (trace (main tty_world (with_modes false false true bare)))
     = [EEditor].
Proof.
  destruct (editor_opened_iff tty_world (with_modes false false true bare))
    as [Hiff Honce].
  assert (H : In EEditor
                (trace (main tty_world (with_modes false false true bare)))).
  { apply (proj2 Hiff). split; reflexivity. }
  split; [exact H | exact (proj2 (Honce H))].
Defined.

Lemma stdin_read_iff_witness :
  exists rest,
    trace (main piped_world (with_prompt "count" bare)) = EStdinRead :: rest
    /\ ~ In EStdinRead rest.
Proof.
  destruct (stdin_read_iff piped_world (with_prompt "count" bare))
    as [Hiff Hfirst].
  apply Hfirst. apply (proj2 Hiff). split; reflexivity.
Defined.

(** ** Argument parsing (lines 35-46 and 149) *)

Definition float_0_0 : float := S754_zero false.

(** click's [FloatRange(min, max)], the type typer gives a float option
    declared with [min=] and [max=]; click is a library, not under src/.
    Its conversion refuses a value that compares below [min] or above
    [max], and hands over any other value unchanged. *)
Definition float_range (lo hi v : float) : option float :=
  if SFltb v lo || SFltb hi v then None else Some v.

(** [lo <= v <= hi] *)
Definition in_interval (lo hi v : float) : bool :=
  SFleb lo v && SFleb v hi.

Definition is_nan (v : float) : bool :=
  match v with
  | S754_nan => true
  | _ => false
  end.

(** [typer.run(main)] (line 149) as far as the two sampling options go:
    each is converted with the range of its declaration, [main] is called
    when both are accepted, and the command line is refused before [main]
    is called, [None], otherwise. *)
Definition entry_point (w : World) (i : Invocation) : option (M unit) :=
  match float_range float_0_0 float_1_0 (temperature i),
        float_range float_0_1 float_1_0 (top_probability i) with
  | Some _, Some _ => Some (main w i)
  | _, _ => None
  end.

Definition with_sampling (t p : float) (i : Invocation) : Invocation :=
  {| prompt := prompt i; model := model i;
     temperature := t; top_probability := p;
     shell := shell i; code := code i; editor := editor i; cache := cache i;
     chat := chat i; repl := repl i; show_chat := show_chat i;
     list_chat := list_chat i |}.

Lemma SFcompare_antisym (x y : float) :
  SFcompare y x = option_map CompOpp (SFcompare x y).
Proof.
  destruct x as [sx | sx | | sx mx ex], y as [sy | sy | | sy my ey];
    try reflexivity;
    try (destruct sx; reflexivity); try (destruct sy; reflexivity);
    try (destruct sx, sy; reflexivity).
  cbn. destruct sx, sy; try reflexivity;
    rewrite (Z.compare_antisym ex ey);
    destruct (ex ?= ey)%Z; cbn; try reflexivity;
    rewrite (Pos.compare_cont_antisym mx my Eq); cbn; reflexivity.
Qed.

Lemma not_below_is_above (x y : float) :
  is_nan x = false -> is_nan y = false ->
  SFltb x y = false -> SFleb y x = true.
Proof.
  intros Hx Hy. unfold SFltb, SFleb. rewrite (SFcompare_antisym x y).
  destruct (SFcompare x y) as [[ | | ] | ] eqn:E; cbn; try easy.
  destruct x, y; try discriminate; cbn in E; try discriminate;
    repeat match goal with s : bool |- _ => destruct s end; discriminate.
Qed.

(** The range check lets through the values of the interval and NaN, which
    compares neither below nor above anything, and nothing else. *)
Lemma float_range_accepts (lo hi v : float) :
  is_nan lo = false -> is_nan hi = false ->
  (float_range lo hi v = Some v
   <-> is_nan v = true \/ in_interval lo hi v = true).
Proof.
  intros Hlo Hhi. unfold float_range, in_interval. split.
  - destruct (SFltb v lo) eqn:E1; cbn; [congruence |].
    destruct (SFltb hi v) eqn:E2; cbn; [congruence |]. intros _.
    destruct (is_nan v) eqn:Hv; [left; reflexivity | right].
    rewrite (not_below_is_above v lo Hv Hlo E1).
    rewrite (not_below_is_above hi v Hhi Hv E2). reflexivity.
  - intros [Hv | Hin].
    + destruct v; try discriminate.
      destruct lo, hi; try discriminate; reflexivity.
    + apply andb_true_iff in Hin. destruct Hin as [H1 H2].
      unfold SFleb, SFltb in *.
      rewrite (SFcompare_antisym lo v).
      destruct (SFcompare lo v) as [[ | | ] | ]; try discriminate; cbn;
        destruct (SFcompare hi v) as [[ | | ] | ] eqn:E; cbn;
        try congruence;
        rewrite (SFcompare_antisym hi v), E in H2; discriminate.
Qed.

Lemma sampling_forwarded (w : World) (i : Invocation) (h : Handler)
    (a : HandleArgs) :
  In (h, a) (calls (trace (main w i))) ->
  ha_temperature a = temperature i
  /\ ha_top_probability a = top_probability i.
Proof.
  run; intros Hin; try contradiction;
    repeat (destruct Hin as [Hin | Hin]; [inversion Hin; subst; cbn; auto |]);
    contradiction.
Qed.

(** C8: [--temperature nan] passes the range check of lines 35-40, [main]
    is called, and the handler receives a temperature that is not in
    [0, 1]; the same holds of [--top-probability nan] and [0.1, 1]. *)
Theorem nan_sampling_reaches_handler :
  entry_point tty_world
    (with_sampling S754_nan S754_nan (with_prompt "hello" bare))
  = Some (main tty_world
            (with_sampling S754_nan S754_nan (with_prompt "hello" bare)))
  /\ exists h a,
       calls (trace (main tty_world
                       (with_sampling S754_nan S754_nan
                          (with_prompt "hello" bare)))) = [(h, a)]
       /\ in_interval float_0_0 float_1_0 (ha_temperature a) = false
       /\ in_interval float_0_1 float_1_0 (ha_top_probability a) = false.
Proof.
  split; [reflexivity |].
  do 2 eexists. split; [reflexivity |]. split; reflexivity.
Qed.

(** X14: a command line is accepted exactly when each sampling value is
    within the range of its declaration or is NaN, and [main] is then run
    on the values as given; so every temperature a handler receives is in
    [0, 1] or NaN, and every top-probability in [0.1, 1] or NaN. *)
Theorem sampling_checked (w : World) (i : Invocation) :
  (entry_point w i = Some (main w i)
   <-> (is_nan (temperature i) = true
        \/ in_interval float_0_0 float_1_0 (temperature i) = true)
       /\ (is_nan (top_probability i) = true
           \/ in_interval float_0_1 float_1_0 (top_probability i) = true))
  /\ (entry_point w i = None \/ entry_point w i = Some (main w i))
  /\ (forall r h a,
        entry_point w i = Some r ->
        In (h, a) (calls (trace r)) ->
        (is_nan (ha_temperature a) = true
         \/ in_interval float_0_0 float_1_0 (ha_temperature a) = true)
        /\ (is_nan (ha_top_probability a) = true
            \/ in_interval float_0_1 float_1_0 (ha_top_probability a)
               = true)).
Proof.
  assert (Hsome : forall lo hi v v', float_range lo hi v = Some v' ->
                                     float_range lo hi v = Some v).
  { unfold float_range. intros lo hi v v'.
    destruct (SFltb v lo || SFltb hi v); congruence. }
  unfold entry_point.
  destruct (float_range float_0_0 float_1_0 (temperature i)) as [t |] eqn:Et;
    [destruct (float_range float_0_1 float_1_0 (top_probability i))
       as [p |] eqn:Ep |].
  - apply Hsome in Et. apply Hsome in Ep.
    apply (float_range_accepts float_0_0 float_1_0 _ eq_refl eq_refl) in Et.
    apply (float_range_accepts float_0_1 float_1_0 _ eq_refl eq_refl) in Ep.
    split; [tauto |]. split; [right; reflexivity |].
    intros r h a Hr Hin. inversion Hr; subst r.
    destruct (sampling_forwarded w i h a Hin) as [Ha1 Ha2].
    rewrite Ha1, Ha2. tauto.
  - split; [| split; [left; reflexivity | discriminate]].
    split; [discriminate |]. intros [_ H].
    apply (float_range_accepts float_0_1 float_1_0 _ eq_refl eq_refl) in H.
    congruence.
  - split; [| split; [left; reflexivity | discriminate]].
    split; [discriminate |]. intros [H _].
    apply (float_range_accepts float_0_0 float_1_0 _ eq_refl eq_refl) in H.
    congruence.
Qed.

Lemma sampling_checked_witness :
  entry_point tty_world (with_prompt "hello" bare)
  = Some (main tty_world (with_prompt "hello" bare))
  /\ entry_point tty_world
       (with_sampling (S754_finite false 4503599627370497 (-52)) float_1_0
          (with_prompt "hello" bare))
     = None.
Proof.
  split.
  - apply (proj2 (proj1 (sampling_checked tty_world
                           (with_prompt "hello" bare)))).
    split; right; reflexivity.
  - destruct (proj1 (proj2 (sampling_checked tty_world
                              (with_sampling
                                 (S754_finite false 4503599627370497 (-52))
                                 float_1_0 (with_prompt "hello" bare)))))
      as [H | H]; [exact H | vm_compute in H; discriminate H].
Defined.
